(** * notifier.py: check a YouTube feed and push a notification for a new video

    A shallow embedding of [src/notifier.py] and the properties of its two
    functions, [send_pushover_notification] and [main].

    Python values are modelled as follows.
    - A [str] is the list of its Unicode code points ([pystr]).
    - [os.environ] is a finite map from variable names to values.
    - The file system is a finite map from paths to the text of each file;
      a path outside the map is a file that does not exist.  Opening a file
      that exists succeeds (permissions, directories and decoding errors are
      outside the model).
    - The two network libraries are functions of their arguments:
      [feedparser_parse] gives the parsed feed for a URL, [requests_post] the
      outcome of a POST.
    - The builtin [int] on a [str] is the function [py_int]; [None] stands
      for [ValueError].
    - A run is a function from the file system before to an outcome (a value
      or the exception that escaped), the file system after, and the list of
      effects in the order they happened. *)

From Stdlib Require Import ZArith NArith Ascii String List.
From stdpp Require Import base option list gmap strings fin_maps.
Import ListNotations.
Local Open Scope string_scope.
Local Open Scope Z_scope.
Local Open Scope list_scope.

(** ** Python strings *)

Abbreviation pystr := (list N).

(** An ASCII literal of the source as a list of code points. *)
Definition str (s : string) : pystr :=
  map N_of_ascii (list_ascii_of_string s).

(** [str.isspace] on one code point: the characters [str.strip()] removes. *)
Definition is_space (c : N) : bool :=
  ((9 <=? c) && (c <=? 13) || (28 <=? c) && (c <=? 32)
   || (c =? 133) || (c =? 160) || (c =? 5760)
   || (8192 <=? c) && (c <=? 8202)
   || (c =? 8232) || (c =? 8233) || (c =? 8239) || (c =? 8287)
   || (c =? 12288))%N.

Fixpoint lstrip (s : pystr) : pystr :=
  match s with
  | c :: s' => if is_space c then lstrip s' else s
  | [] => []
  end.

Definition rstrip (s : pystr) : pystr := rev (lstrip (rev s)).

(** [s.strip()] *)
Definition py_strip (s : pystr) : pystr := rstrip (lstrip s).

(** Truth value of a [str]: non-empty. *)
Definition truthy (s : pystr) : bool :=
  match s with [] => false | _ => true end.

(** [sep.join(parts)] *)
Fixpoint join (sep : pystr) (parts : list pystr) : pystr :=
  match parts with
  | [] => []
  | [p] => p
  | p :: rest => p ++ sep ++ join sep rest
  end.

(** [f"{v}"] for an [Optional[str]]. *)
Definition format_opt (v : option pystr) : pystr :=
  match v with Some s => s | None => str "None" end.

(** ** Values, exceptions, effects *)

(** A value of the request dictionary ([Dict[str, Any]]): the source stores
    strings and integers. *)
Inductive Value :=
  | VStr (s : pystr)
  | VInt (n : Z).

#[global] Instance Value_eq_dec : EqDecision Value.
Proof. solve_decision. Defined.

Inductive Exn :=
  | ValueError                        (* int() on a non-numeric string *)
  | AttributeError (name : string)    (* a feed entry without the attribute *)
  | HTTPError (status_code : Z)       (* Response.raise_for_status() *)
  | RequestException.                 (* requests.post itself failed *)

#[global] Instance Exn_eq_dec : EqDecision Exn.
Proof. solve_decision. Defined.

Inductive Result (A : Type) :=
  | Ok (a : A)
  | Raise (e : Exn).
Arguments Ok {A} a.
Arguments Raise {A} e.

Inductive Event :=
  | Print (line : pystr)
  | FeedFetch (url : pystr)
  | FileRead (path : pystr)
  | FileWrite (path content : pystr)
  | HttpPost (url : pystr) (data : gmap string Value) (timeout : Z).

(** What [requests.post] does: it returns a response with a status code, or
    raises (connection error, timeout). *)
Inductive PostOutcome :=
  | Responded (status_code : Z)
  | PostFailed.

(** A parsed feed entry.  Attribute access on an entry raises
    [AttributeError] when the feed item had no such element. *)
Record Entry := mkEntry {
  yt_videoid : option pystr;
  title : option pystr;
  link : option pystr
}.

(** The object [feedparser.parse] returns; [entries = None] is an object
    without the attribute. *)
Record Feed := mkFeed { entries : option (list Entry) }.

(** ** Runs *)

Record Run (A : Type) := mkRun {
  outcome : Result A;
  files_after : gmap pystr pystr;
  events : list Event
}.
Arguments mkRun {A} _ _ _.
Arguments outcome {A} _.
Arguments files_after {A} _.
Arguments events {A} _.

Definition M (A : Type) : Type := gmap pystr pystr -> Run A.

Definition ret {A} (a : A) : M A := fun fs => mkRun (Ok a) fs [].

Definition raise {A} (e : Exn) : M A := fun fs => mkRun (Raise e) fs [].

Definition bind {A B} (m : M A) (k : A -> M B) : M B := fun fs =>
  let r := m fs in
  match outcome r with
  | Ok a =>
      let r' := k a (files_after r) in
      mkRun (outcome r') (files_after r') (events r ++ events r')
  | Raise e => mkRun (Raise e) (files_after r) (events r)
  end.

Notation "'let*' x ':=' m 'in' k" := (bind m (fun x => k))
  (at level 10, x name, m at level 100, k at level 200).

Definition emit (e : Event) : M unit := fun fs => mkRun (Ok tt) fs [e].

Definition lift {A} (r : Result A) : M A :=
  match r with Ok a => ret a | Raise e => raise e end.

(** [print(line)] *)
Definition print (line : pystr) : M unit := emit (Print line).

(** [with open(path) as f: f.read()]; [None] is [FileNotFoundError]. *)
Definition read_file (path : pystr) : M (option pystr) := fun fs =>
  mkRun (Ok (fs !! path)) fs [FileRead path].

(** [with open(path, "w") as f: f.write(content)]: the file is replaced. *)
Definition write_file (path content : pystr) : M unit := fun fs =>
  mkRun (Ok tt) (<[path := content]> fs) [FileWrite path content].

(** [entry.name] *)
Definition getattr (name : string) (v : option pystr) : M pystr :=
  match v with Some s => ret s | None => raise (AttributeError name) end.

(** [Response.raise_for_status()]: 4xx and 5xx raise. *)
Definition raise_for_status (status_code : Z) : Result unit :=
  if (400 <=? status_code) && (status_code <? 600)
  then Raise (HTTPError status_code) else Ok tt.

(** The POSTs among the effects of a run. *)
Definition is_post (e : Event) : bool :=
  match e with HttpPost _ _ _ => true | _ => false end.

Definition posts (evs : list Event) : list Event := List.filter is_post evs.

Definition touches_file (e : Event) : bool :=
  match e with FileRead _ | FileWrite _ _ => true | _ => false end.

(** ** The program *)

Section Notifier.

(** The builtin [int] on a [str]. *)
Variable py_int : pystr -> option Z.
(** [os.environ] *)
Variable environ : gmap string pystr.
(** [feedparser.parse] *)
Variable feedparser_parse : pystr -> Feed.
(** [requests.post(url, data=..., timeout=...)] *)
Variable requests_post : pystr -> gmap string Value -> Z -> PostOutcome.

(** [os.environ.get(name, default)] *)
Definition environ_get (name : string) (default : pystr) : pystr :=
  match environ !! name with Some v => v | None => default end.

(** Module-level configuration (lines 15-22). *)
Definition YOUTUBE_CHANNEL_ID : pystr := environ_get "YOUTUBE_CHANNEL_ID" [].

Definition FEED_URL : pystr :=
  py_strip
    (environ_get "YOUTUBE_FEED_URL"
       (if truthy YOUTUBE_CHANNEL_ID
        then str "https://www.youtube.com/feeds/videos.xml?channel_id="
             ++ YOUTUBE_CHANNEL_ID
        else [])).

Definition LAST_SEEN_FILE : pystr := environ_get "LAST_SEEN_FILE" [].
Definition PUSHOVER_USER : pystr := environ_get "PUSHOVER_USER" [].
Definition PUSHOVER_TOKEN : pystr := environ_get "PUSHOVER_TOKEN" [].

(** [int(os.environ.get(name, default))] *)
Definition int_env (name : string) (default : string) : Result Z :=
  match py_int (environ_get name (str default)) with
  | Some n => Ok n
  | None => Raise ValueError
  end.

Definition pushover_endpoint : pystr :=
  str "https://api.pushover.net/1/messages.json".

(** The fixed title: U+1F4FA (television) and the text after it. *)
Definition notification_title : pystr :=
  128250%N :: str " New YouTube Video".

(** Lines 25-40 of [send_pushover_notification]: the request dictionary. *)
Definition notification_data (to text : pystr) (url : option pystr)
  : Result (gmap string Value) :=
  match int_env "PUSHOVER_PRIORITY" "1" with
  | Raise e => Raise e
  | Ok priority =>
      let data : gmap string Value :=
        <["priority" := VInt priority]>
        (<["message" := VStr text]>
        (<["title" := VStr notification_title]>
        (<["user" := VStr to]>
        (<["token" := VStr PUSHOVER_TOKEN]> ∅)))) in
      let with_url (data : gmap string Value) : gmap string Value :=
        match url with
        | Some u => <["url_title" := VStr (str "Open Video")]>
                    (<["url" := VStr u]> data)
        | None => data
        end in
      if priority =? 2 then
        match int_env "PUSHOVER_RETRY" "60" with
        | Raise e => Raise e
        | Ok retry =>
            match int_env "PUSHOVER_EXPIRE" "3600" with
            | Raise e => Raise e
            | Ok expire =>
                Ok (with_url (<["expire" := VInt expire]>
                              (<["retry" := VInt retry]> data)))
            end
        end
      else Ok (with_url data)
  end.

(** Lines 42-43: the POST and the check of its status. *)
Definition post_and_check (data : gmap string Value) : M unit :=
  let* _ := emit (HttpPost pushover_endpoint data 15) in
  match requests_post pushover_endpoint data 15 with
  | Responded status_code => lift (raise_for_status status_code)
  | PostFailed => raise RequestException
  end.

Definition send_pushover_notification (to text : pystr) (url : option pystr)
  : M unit :=
  let* data := lift (notification_data to text url) in
  post_and_check data.

(** Lines 50-56 of [main]. *)
Definition required : list (pystr * pystr) :=
  [ (str "YOUTUBE_FEED_URL or YOUTUBE_CHANNEL_ID", FEED_URL);
    (str "LAST_SEEN_FILE", LAST_SEEN_FILE);
    (str "PUSHOVER_USER", PUSHOVER_USER);
    (str "PUSHOVER_TOKEN", PUSHOVER_TOKEN) ].

(** [not (value and value.strip())] *)
Definition blank (value : pystr) : bool :=
  negb (truthy value && truthy (py_strip value)).

Definition missing : list pystr :=
  map fst (List.filter (fun nv => blank (snd nv)) required).

(** Lines 73-78 of [main]: the marker file, or [None] on the first run. *)
Definition load_last_seen : M (option pystr) :=
  let* contents := read_file LAST_SEEN_FILE in
  match contents with
  | Some text => ret (Some (py_strip text))
  | None =>
      let* _ := print (str "LAST_SEEN_FILE not found; treating as first run.") in
      ret None
  end.

(** [video_id != last_seen] *)
Definition differs (video_id : pystr) (last_seen : option pystr) : bool :=
  negb (bool_decide (Some video_id = last_seen)).

(** Lines 73-90 of [main]: compare with the marker, notify and update. *)
Definition check_and_notify (video_id title link : pystr) : M unit :=
  let* last_seen := load_last_seen in
  let* _ := print (str "Last seen video ID: " ++ format_opt last_seen) in
  if differs video_id last_seen then
    let* _ := print (str "New video detected. Sending notification and updating LAST_SEEN_FILE.") in
    let* _ := send_pushover_notification PUSHOVER_USER title (Some link) in
    let* _ := write_file LAST_SEEN_FILE video_id in
    print (str "LAST_SEEN_FILE updated.")
  else
    print (str "No new video. Nothing to do.").

Definition main : M unit :=
  match missing with
  | _ :: _ =>
      print (str "Missing required env: " ++ join (str ", ") missing)
  | [] =>
      let* _ := emit (FeedFetch FEED_URL) in
      match entries (feedparser_parse FEED_URL) with
      | None | Some [] =>
          print (str "No entries found in feed. Exiting without sending notification.")
      | Some (latest :: _) =>
          let* video_id := getattr "yt_videoid" (yt_videoid latest) in
          let* title := getattr "title" (title latest) in
          let* link := getattr "link" (link latest) in
          check_and_notify video_id title link
      end
  end.

End Notifier.


(** ** Concrete worlds

    A decimal reader standing for [int] and the two examples of the
    specification, used to run the program on concrete inputs. *)

Fixpoint digits_value (acc : Z) (s : pystr) : option Z :=
  match s with
  | [] => Some acc
  | c :: s' =>
      if ((48 <=? c) && (c <=? 57))%N
      then digits_value (10 * acc + Z.of_N (c - 48)) s'
      else None
  end.

(** An optional sign and one or more ASCII digits. *)
Definition int_of_decimal (s : pystr) : option Z :=
  match s with
  | [] => None
  | 45%N :: (_ :: _) as ds => Z.opp <$> digits_value 0 ds
  | 43%N :: (_ :: _) as ds => digits_value 0 ds
  | 45%N :: [] | 43%N :: [] => None
  | _ => digits_value 0 s
  end.

Definition example_environ : gmap string pystr :=
  <["YOUTUBE_CHANNEL_ID" := str "UC123"]>
  (<["LAST_SEEN_FILE" := str "/tmp/last_seen.txt"]>
  (<["PUSHOVER_USER" := str "user-key"]>
  (<["PUSHOVER_TOKEN" := str "app-token"]> ∅))).

Definition example_entry : Entry :=
  mkEntry (Some (str "xyz789")) (Some (str "My New Upload"))
          (Some (str "https://youtu.be/xyz789")).

Definition example_feed (url : pystr) : Feed :=
  mkFeed (Some [example_entry]).

Definition empty_feed (url : pystr) : Feed := mkFeed (Some []).

Definition example_files (contents : pystr) : gmap pystr pystr :=
  {[ str "/tmp/last_seen.txt" := contents ]}.

Definition post_responds (status_code : Z)
  : pystr -> gmap string Value -> Z -> PostOutcome :=
  fun _ _ _ => Responded status_code.

(** The run on the example feed, by the status the service answers with and
    the contents of the marker file. *)
Definition example_run (status_code : Z) (contents : pystr) : Run unit :=
  main int_of_decimal example_environ example_feed (post_responds status_code)
       (example_files contents).

(** The request for the example entry at the default priority. *)
Definition example_data : gmap string Value :=
  <["url_title" := VStr (str "Open Video")]>
  (<["url" := VStr (str "https://youtu.be/xyz789")]>
  (<["priority" := VInt 1]>
  (<["message" := VStr (str "My New Upload")]>
  (<["title" := VStr notification_title]>
  (<["user" := VStr (str "user-key")]>
  (<["token" := VStr (str "app-token")]> ∅)))))).

(** Emergency priority with a configured retry interval and the default
    expiration. *)
Definition emergency_environ : gmap string pystr :=
  <["PUSHOVER_PRIORITY" := str "2"]>
  (<["PUSHOVER_RETRY" := str "30"]> example_environ).

Definition emergency_data : gmap string Value :=
  <["expire" := VInt 3600]>
  (<["retry" := VInt 30]>
  (<["priority" := VInt 2]>
  (<["message" := VStr (str "My New Upload")]>
  (<["title" := VStr notification_title]>
  (<["user" := VStr (str "user-key")]>
  (<["token" := VStr (str "app-token")]> ∅)))))).



(** A priority that [int] rejects. *)
Definition bad_priority_environ : gmap string pystr :=
  <["PUSHOVER_PRIORITY" := str "high"]> example_environ.

(** An explicit, blank feed URL beside a channel ID. *)
Definition blank_url_environ : gmap string pystr :=
  <["YOUTUBE_FEED_URL" := str "  "]> example_environ.

(** A channel ID with whitespace on both sides and no feed URL. *)
Definition padded_channel_environ : gmap string pystr :=
  <["YOUTUBE_CHANNEL_ID" := str " UC123 "]> example_environ.

(** A feed whose latest entry has a title and a link and no video ID. *)
Definition feed_without_video_id (url : pystr) : Feed :=
  mkFeed (Some [mkEntry None (Some (str "A post"))
                        (Some (str "https://example.org/a-post"))]).

(** The notification call did not go through: [requests.post] raised, or
    [raise_for_status] raises on the status it returned. *)
Definition call_fails (o : PostOutcome) : Prop :=
  match o with
  | Responded status_code => 400 <= status_code < 600
  | PostFailed => True
  end.

(** The first of the three attributes lines 69-71 read, in that order, that
    the entry does not have. *)
Definition first_missing_attribute (latest : Entry) : option string :=
  match yt_videoid latest, title latest, link latest with
  | None, _, _ => Some "yt_videoid"
  | Some _, None, _ => Some "title"
  | Some _, Some _, None => Some "link"
  | Some _, Some _, Some _ => None
  end.

Definition is_write (e : Event) : bool :=
  match e with FileWrite _ _ => true | _ => false end.

Definition is_fetch (e : Event) : bool :=
  match e with FeedFetch _ => true | _ => false end.

Definition is_read (e : Event) : bool :=
  match e with FileRead _ => true | _ => false end.

(** The path of a file effect is the given one. *)
Definition on_path (path : pystr) (e : Event) : Prop :=
  match e with
  | FileRead p | FileWrite p _ => p = path
  | _ => True
  end.

(** The URL prefix of line 18. *)
Definition channel_feed_prefix : pystr :=
  str "https://www.youtube.com/feeds/videos.xml?channel_id=".

(** ** Stripping *)

Lemma lstrip_spaces (s : pystr) :
  forallb is_space s = true -> lstrip s = [].
Proof.
  induction s as [|c s IH]; simpl; [reflexivity|].
  intros [Hc Hs]%andb_true_iff. rewrite Hc. auto.
Qed.

Lemma lstrip_empty_spaces (s : pystr) :
  lstrip s = [] -> forallb is_space s = true.
Proof.
  induction s as [|c s IH]; simpl; [reflexivity|].
  destruct (is_space c); simpl; [assumption | discriminate].
Qed.

Lemma lstrip_app_spaces (pre s : pystr) :
  forallb is_space pre = true -> lstrip (pre ++ s) = lstrip s.
Proof.
  induction pre as [|c pre IH]; simpl; [reflexivity|].
  intros [Hc Hs]%andb_true_iff. rewrite Hc. auto.
Qed.

Lemma lstrip_app_keep (s t : pystr) :
  lstrip s <> [] -> lstrip (s ++ t) = lstrip s ++ t.
Proof.
  induction s as [|c s IH]; simpl; [congruence|].
  destruct (is_space c); auto.
Qed.

Lemma lstrip_idem (s : pystr) : lstrip (lstrip s) = lstrip s.
Proof.
  induction s as [|c s IH]; simpl; [reflexivity|].
  destruct (is_space c) eqn:Hc; [assumption|]. simpl. now rewrite Hc.
Qed.

Lemma forallb_rev {A} (f : A -> bool) (l : list A) :
  forallb f (rev l) = forallb f l.
Proof.
  induction l as [|a l IH]; simpl; [reflexivity|].
  rewrite forallb_app, IH. simpl. rewrite andb_true_r. apply andb_comm.
Qed.

Lemma rstrip_app_spaces (s post : pystr) :
  forallb is_space post = true -> rstrip (s ++ post) = rstrip s.
Proof.
  intros H. unfold rstrip. rewrite rev_app_distr.
  rewrite lstrip_app_spaces; [reflexivity|].
  now rewrite forallb_rev.
Qed.

Lemma py_strip_nil : py_strip [] = [].
Proof. reflexivity. Qed.

Lemma lstrip_head (s : pystr) (c : N) (r : pystr) :
  lstrip s = c :: r -> is_space c = false.
Proof.
  induction s as [|a s IH]; simpl; [discriminate|].
  destruct (is_space a) eqn:Ha; [assumption|].
  intros [= <- _]. assumption.
Qed.

Lemma lstrip_snoc (l : pystr) (c : N) :
  is_space c = false -> lstrip (l ++ [c]) <> [].
Proof.
  intros Hc. induction l as [|a l IH]; simpl.
  - now rewrite Hc.
  - destruct (is_space a); [assumption | discriminate].
Qed.

(** Stripping leaves nothing exactly when the value is empty or whitespace
    only. *)
Lemma py_strip_spaces (s : pystr) :
  forallb is_space s = true <-> py_strip s = [].
Proof.
  unfold py_strip, rstrip. split.
  - intros H. now rewrite (lstrip_spaces s H).
  - intros H. apply lstrip_empty_spaces.
    destruct (lstrip s) as [|c r] eqn:E; [reflexivity|].
    exfalso. apply (f_equal (@rev N)) in H.
    rewrite rev_involutive in H. simpl in H.
    apply (lstrip_snoc (rev r) c); [|assumption].
    apply (lstrip_head s c r E).
Qed.

Lemma lstrip_length (s : pystr) : (length (lstrip s) <= length s)%nat.
Proof.
  induction s as [|c s IH]; simpl; [lia|].
  destruct (is_space c); simpl; lia.
Qed.

Lemma lstrip_fixed (s : pystr) :
  length (lstrip s) = length s -> lstrip s = s.
Proof.
  destruct s as [|c s]; simpl; [reflexivity|].
  destruct (is_space c); [|reflexivity].
  pose proof (lstrip_length s). lia.
Qed.

Lemma py_strip_fixed (s : pystr) :
  py_strip s = s -> lstrip s = s /\ rstrip s = s.
Proof.
  unfold py_strip. intros H.
  assert (Hl : lstrip s = s).
  { apply lstrip_fixed. apply (f_equal (@length N)) in H.
    unfold rstrip in H. rewrite length_rev in H.
    pose proof (lstrip_length (rev (lstrip s))) as H1.
    rewrite length_rev in H1. pose proof (lstrip_length s). lia. }
  split; [assumption|]. now rewrite Hl in H.
Qed.

(** The marker's identifier with whitespace on both sides strips back to the
    identifier. *)
Lemma py_strip_surround (pre s post : pystr) :
  forallb is_space pre = true -> forallb is_space post = true ->
  py_strip s = s -> py_strip (pre ++ s ++ post) = s.
Proof.
  intros Hpre Hpost Hs. destruct (py_strip_fixed s Hs) as [Hl Hr].
  unfold py_strip. rewrite lstrip_app_spaces by assumption.
  destruct s as [|c s].
  - simpl. now rewrite (lstrip_spaces post Hpost).
  - rewrite lstrip_app_keep by (rewrite Hl; discriminate).
    rewrite Hl. now rewrite rstrip_app_spaces.
Qed.

Lemma py_strip_idem (s : pystr) : py_strip (py_strip s) = py_strip s.
Proof.
  unfold py_strip at 1 2.
  assert (H : lstrip (rstrip (lstrip s)) = rstrip (lstrip s)).
  { destruct (lstrip s) as [|c r] eqn:E; [reflexivity|].
    pose proof (lstrip_head s c r E) as Hc.
    unfold rstrip. destruct (lstrip (rev (c :: r))) as [|d q] eqn:E'.
    - exfalso. simpl in E'. now apply (lstrip_snoc (rev r) c).
    - assert (Hq : exists q', rev (d :: q) = c :: q').
      { clear -E'. simpl in E'.
        assert (G : forall l, lstrip (l ++ [c]) = d :: q ->
                              exists l', d :: q = l' ++ [c]).
        { induction l as [|a l IH]; simpl.
          - destruct (is_space c); [discriminate|]. intros <-. now exists [].
          - destruct (is_space a); [assumption|]. intros <-. now exists (a :: l). }
        destruct (G _ E') as [l' ->]. rewrite rev_app_distr. simpl. eauto. }
      destruct Hq as [q' ->]. simpl. now rewrite Hc. }
  rewrite H. unfold rstrip at 1. unfold rstrip at 1.
  rewrite rev_involutive, lstrip_idem. reflexivity.
Qed.

Lemma blank_spec (value : pystr) :
  blank value = true <-> forallb is_space value = true.
Proof.
  unfold blank. destruct value as [|c v]; [simpl; tauto|].
  rewrite py_strip_spaces. cbn [truthy andb].
  destruct (py_strip (c :: v)); simpl; split; congruence.
Qed.

(** ** Runs of [send_pushover_notification] and [main] *)

Arguments str : simpl never.
Arguments py_strip : simpl never.

(** Reduce the plumbing of a run and nothing else. *)
Tactic Notation "run_simpl" :=
  cbn [bind ret raise emit print lift outcome files_after events app fmap
       option_fmap option_map].
Tactic Notation "run_simpl" "in" "*" :=
  cbn [bind ret raise emit print lift outcome files_after events app fmap
       option_fmap option_map] in *.

Section Properties.

Context (py_int : pystr -> option Z) (environ : gmap string pystr)
        (feedparser_parse : pystr -> Feed)
        (requests_post : pystr -> gmap string Value -> Z -> PostOutcome).

Local Abbreviation run := (main py_int environ feedparser_parse requests_post).
Local Abbreviation send :=
  (send_pushover_notification py_int environ requests_post).
Local Abbreviation feed := (feedparser_parse (FEED_URL environ)).
Local Abbreviation marker := (LAST_SEEN_FILE environ).
Local Abbreviation request_data := (notification_data py_int environ).
Local Abbreviation check fs video_id t l :=
  (check_and_notify py_int environ requests_post video_id t l fs).

(** The run of the notification call, by the request it builds and the
    answer it gets. *)
Lemma send_run (to text : pystr) (url : option pystr) (fs : gmap pystr pystr) :
  send to text url fs =
  match request_data to text url with
  | Raise e => mkRun (Raise e) fs []
  | Ok data =>
      let post := HttpPost pushover_endpoint data 15 in
      match requests_post pushover_endpoint data 15 with
      | Responded status_code =>
          mkRun (raise_for_status status_code) fs [post]
      | PostFailed => mkRun (Raise RequestException) fs [post]
      end
  end.
Proof.
  unfold send_pushover_notification, post_and_check, bind, lift.
  destruct (request_data to text url) as [data|e]; simpl; [|reflexivity].
  destruct (requests_post pushover_endpoint data 15) as [s|]; simpl;
    [|reflexivity].
  destruct (raise_for_status s); reflexivity.
Qed.

(** The notification call never touches the file system. *)
Lemma send_files (to text : pystr) (url : option pystr) (fs : gmap pystr pystr) :
  files_after (send to text url fs) = fs.
Proof.
  rewrite send_run.
  destruct (request_data to text url) as [data|e]; [|reflexivity].
  simpl. destruct (requests_post pushover_endpoint data 15); reflexivity.
Qed.

(** The run of lines 73-78. *)
Lemma load_last_seen_run (fs : gmap pystr pystr) :
  load_last_seen environ fs =
  match fs !! marker with
  | Some text => mkRun (Ok (Some (py_strip text))) fs [FileRead marker]
  | None =>
      mkRun (Ok None) fs
        [FileRead marker;
         Print (str "LAST_SEEN_FILE not found; treating as first run.")]
  end.
Proof.
  unfold load_last_seen, bind, read_file. simpl.
  destruct (fs !! marker); reflexivity.
Qed.

(** The run of lines 73-90, by the marker file and the run of the
    notification call. *)
Lemma check_and_notify_run (video_id t l : pystr) (fs : gmap pystr pystr) :
  check fs video_id t l =
  let last_seen := py_strip <$> fs !! marker in
  let head :=
    FileRead marker
    :: match fs !! marker with
       | Some _ => []
       | None => [Print (str "LAST_SEEN_FILE not found; treating as first run.")]
       end
    ++ [Print (str "Last seen video ID: " ++ format_opt last_seen)] in
  if differs video_id last_seen then
    let s := send (PUSHOVER_USER environ) t (Some l) fs in
    let new := Print (str "New video detected. Sending notification and updating LAST_SEEN_FILE.") in
    match outcome s with
    | Ok _ =>
        mkRun (Ok tt) (<[marker := video_id]> fs)
          (head ++ new :: events s
           ++ [FileWrite marker video_id; Print (str "LAST_SEEN_FILE updated.")])
    | Raise e => mkRun (Raise e) fs (head ++ new :: events s)
    end
  else mkRun (Ok tt) fs (head ++ [Print (str "No new video. Nothing to do.")]).
Proof.
  unfold check_and_notify. unfold bind at 1. rewrite load_last_seen_run.
  pose proof (send_files (PUSHOVER_USER environ) t (Some l) fs) as Hf.
  destruct (fs !! marker) as [text|]; run_simpl.
  - destruct (differs video_id (Some (py_strip text))); [|reflexivity].
    unfold bind, print, emit, write_file. run_simpl.
    destruct (send (PUSHOVER_USER environ) t (Some l) fs) as [[[]|e] fs' evs];
      run_simpl in *; subst; rewrite <- ?app_assoc; reflexivity.
  - destruct (differs video_id None); [|reflexivity].
    unfold bind, print, emit, write_file. run_simpl.
    destruct (send (PUSHOVER_USER environ) t (Some l) fs) as [[[]|e] fs' evs];
      run_simpl in *; subst; rewrite <- ?app_assoc; reflexivity.
Qed.

Lemma main_run (fs : gmap pystr pystr) :
  run fs =
  match missing environ with
  | _ :: _ =>
      mkRun (Ok tt) fs
        [Print (str "Missing required env: "
                ++ join (str ", ") (missing environ))]
  | [] =>
      match entries feed with
      | None | Some [] =>
          mkRun (Ok tt) fs
            [FeedFetch (FEED_URL environ);
             Print (str "No entries found in feed. Exiting without sending notification.")]
      | Some (latest :: _) =>
          match yt_videoid latest, title latest, link latest with
          | None, _, _ =>
              mkRun (Raise (AttributeError "yt_videoid")) fs
                [FeedFetch (FEED_URL environ)]
          | Some _, None, _ =>
              mkRun (Raise (AttributeError "title")) fs
                [FeedFetch (FEED_URL environ)]
          | Some _, Some _, None =>
              mkRun (Raise (AttributeError "link")) fs
                [FeedFetch (FEED_URL environ)]
          | Some video_id, Some t, Some l =>
              let r := check fs video_id t l in
              mkRun (outcome r) (files_after r)
                (FeedFetch (FEED_URL environ) :: events r)
          end
      end
  end.
Proof.
  unfold main. destruct (missing environ); [|reflexivity].
  unfold bind at 1. simpl.
  destruct (entries feed) as [[|latest rest]|]; try reflexivity.
  destruct latest as [[v|] [t|] [l|]]; reflexivity.
Qed.

Lemma posts_app (a b : list Event) : posts (a ++ b) = posts a ++ posts b.
Proof. apply List.filter_app. Qed.

Lemma send_posts (to text : pystr) (url : option pystr) (fs : gmap pystr pystr) :
  posts (events (send to text url fs)) =
  match request_data to text url with
  | Ok data => [HttpPost pushover_endpoint data 15]
  | Raise _ => []
  end.
Proof.
  rewrite send_run.
  destruct (request_data to text url) as [data|e]; [|reflexivity].
  cbn zeta. destruct (requests_post pushover_endpoint data 15); reflexivity.
Qed.

Lemma send_no_write (to text : pystr) (url : option pystr) (fs : gmap pystr pystr) :
  List.filter is_write (events (send to text url fs)) = [].
Proof.
  rewrite send_run.
  destruct (request_data to text url) as [data|e]; [|reflexivity].
  cbn zeta. destruct (requests_post pushover_endpoint data 15); reflexivity.
Qed.

Lemma check_posts (video_id t l : pystr) (fs : gmap pystr pystr) :
  posts (events (check fs video_id t l)) =
  if differs video_id (py_strip <$> fs !! marker)
  then posts (events (send (PUSHOVER_USER environ) t (Some l) fs))
  else [].
Proof.
  rewrite check_and_notify_run. cbn zeta.
  destruct (differs video_id (py_strip <$> fs !! marker)).
  - destruct (outcome (send (PUSHOVER_USER environ) t (Some l) fs));
      destruct (fs !! marker); run_simpl;
      rewrite ?posts_app; cbn [posts List.filter is_post];
      rewrite ?posts_app, ?app_nil_r; reflexivity.
  - destruct (fs !! marker); reflexivity.
Qed.

Lemma check_files (video_id t l : pystr) (fs : gmap pystr pystr) :
  files_after (check fs video_id t l) =
  if differs video_id (py_strip <$> fs !! marker) then
    match outcome (send (PUSHOVER_USER environ) t (Some l) fs) with
    | Ok _ => <[marker := video_id]> fs
    | Raise _ => fs
    end
  else fs.
Proof.
  rewrite check_and_notify_run. cbn zeta.
  destruct (differs video_id (py_strip <$> fs !! marker)); [|reflexivity].
  destruct (outcome (send (PUSHOVER_USER environ) t (Some l) fs)); reflexivity.
Qed.

Lemma check_outcome (video_id t l : pystr) (fs : gmap pystr pystr) :
  outcome (check fs video_id t l) =
  if differs video_id (py_strip <$> fs !! marker)
  then outcome (send (PUSHOVER_USER environ) t (Some l) fs)
  else Ok tt.
Proof.
  rewrite check_and_notify_run. cbn zeta.
  destruct (differs video_id (py_strip <$> fs !! marker)); [|reflexivity].
  destruct (outcome (send (PUSHOVER_USER environ) t (Some l) fs)) as [[]|];
    reflexivity.
Qed.

Lemma check_writes (video_id t l : pystr) (fs : gmap pystr pystr) :
  List.filter is_write (events (check fs video_id t l)) =
  if differs video_id (py_strip <$> fs !! marker) then
    match outcome (send (PUSHOVER_USER environ) t (Some l) fs) with
    | Ok _ => [FileWrite marker video_id]
    | Raise _ => []
    end
  else [].
Proof.
  rewrite check_and_notify_run. cbn zeta.
  pose proof (send_no_write (PUSHOVER_USER environ) t (Some l) fs) as Hw.
  destruct (differs video_id (py_strip <$> fs !! marker)).
  - destruct (outcome (send (PUSHOVER_USER environ) t (Some l) fs));
      destruct (fs !! marker); run_simpl;
      rewrite ?List.filter_app; cbn [List.filter is_write];
      rewrite ?List.filter_app, ?Hw; reflexivity.
  - destruct (fs !! marker); reflexivity.
Qed.

(** A run of [main] that reaches line 73. *)
Lemma main_entry_run (fs : gmap pystr pystr) (latest : Entry)
    (rest : list Entry) (video_id t l : pystr) :
  missing environ = [] ->
  entries feed = Some (latest :: rest) ->
  yt_videoid latest = Some video_id ->
  title latest = Some t ->
  link latest = Some l ->
  run fs =
  mkRun (outcome (check fs video_id t l)) (files_after (check fs video_id t l))
        (FeedFetch (FEED_URL environ) :: events (check fs video_id t l)).
Proof.
  intros Hm He Hv Ht Hl. rewrite main_run, Hm, He, Hv, Ht, Hl. reflexivity.
Qed.

(** Either [main] stops before line 73, having posted and written nothing,
    or it runs lines 73-90 for the latest entry. *)
Lemma main_cases (fs : gmap pystr pystr) :
  (files_after (run fs) = fs /\ posts (events (run fs)) = [] /\
   List.filter is_write (events (run fs)) = []) \/
  (exists latest rest video_id t l,
     missing environ = [] /\
     entries feed = Some (latest :: rest) /\
     yt_videoid latest = Some video_id /\
     title latest = Some t /\ link latest = Some l).
Proof.
  rewrite main_run.
  destruct (missing environ) eqn:Hm; [|left; auto].
  destruct (entries feed) as [[|latest rest]|] eqn:He; [left; auto| |left; auto].
  destruct (yt_videoid latest) as [v|] eqn:Hv; [|left; auto].
  destruct (title latest) as [t|] eqn:Ht; [|left; auto].
  destruct (link latest) as [l|] eqn:Hl; [|left; auto].
  right. exists latest, rest, v, t, l. auto.
Qed.

Lemma posts_in (e : Event) (evs : list Event) :
  In e (posts evs) -> In e evs.
Proof. intros H. apply List.filter_In in H. tauto. Qed.

(** An exception leaves the file system as it was. *)
Lemma main_raise_keeps_files (fs : gmap pystr pystr) (e : Exn) :
  outcome (run fs) = Raise e -> files_after (run fs) = fs.
Proof.
  destruct (main_cases fs) as [(Hf & _) | (latest & rest & v & t & l & H)];
    [auto|].
  destruct H as (Hm & He & Hv & Ht & Hl).
  rewrite (main_entry_run fs latest rest v t l) by assumption.
  cbn [outcome files_after]. rewrite check_outcome, check_files.
  destruct (differs v (py_strip <$> fs !! marker)); [|discriminate].
  intros ->. reflexivity.
Qed.

(** C1. If every POST the run makes is answered with a failure (the call
    raises, or the status is one [raise_for_status] raises on), the run
    leaves the file system, and so the marker file, as it found it: nothing
    is written, and a run that posted ends with the exception. *)
Theorem marker_unchanged_when_notification_fails (fs : gmap pystr pystr) :
  (forall data, In (HttpPost pushover_endpoint data 15) (events (run fs)) ->
                call_fails (requests_post pushover_endpoint data 15)) ->
  files_after (run fs) = fs /\
  List.filter is_write (events (run fs)) = [] /\
  (posts (events (run fs)) <> [] -> exists e, outcome (run fs) = Raise e).
Proof.
  destruct (main_cases fs) as [(Hf & Hp & Hw) | (latest & rest & v & t & l & H)].
  { intros _. repeat split; auto. intros Hne. now destruct Hne. }
  destruct H as (Hm & He & Hv & Ht & Hl).
  rewrite (main_entry_run fs latest rest v t l) by assumption.
  cbn [outcome files_after events]. intros Hfail.
  assert (Hs : forall data,
             In (HttpPost pushover_endpoint data 15)
                (posts (events (check fs v t l))) ->
             call_fails (requests_post pushover_endpoint data 15)).
  { intros data Hin. apply Hfail. right. now apply posts_in in Hin. }
  clear Hfail. change (posts (?e :: ?evs)) with (posts evs).
  cbn [List.filter is_write].
  rewrite check_files, check_writes, check_outcome.
  rewrite check_posts in Hs |- *.
  destruct (differs v (py_strip <$> fs !! marker)).
  2:{ repeat split; auto. intros Hne. now destruct Hne. }
  rewrite send_posts in Hs |- *. rewrite send_run.
  destruct (request_data (PUSHOVER_USER environ) t (Some l)) as [data|e].
  2:{ cbn [outcome]. repeat split; eauto. }
  specialize (Hs data (or_introl eq_refl)). cbn zeta.
  destruct (requests_post pushover_endpoint data 15) as [s|]; cbn [outcome].
  2:{ repeat split; eauto. }
  cbn [call_fails] in Hs. unfold raise_for_status.
  replace ((400 <=? s) && (s <? 600)) with true
    by (symmetry; apply andb_true_iff; split; lia).
  repeat split; eauto.
Qed.


(** C3. When the latest entry's video ID equals the last-seen ID loaded from
    the marker file, the run makes no POST, writes nothing and leaves the
    file system as it found it. *)
Theorem same_video_is_noop
    (fs : gmap pystr pystr) (latest : Entry) (rest : list Entry)
    (video_id : pystr) :
  entries feed = Some (latest :: rest) ->
  yt_videoid latest = Some video_id ->
  outcome (load_last_seen environ fs) = Ok (Some video_id) ->
  posts (events (run fs)) = [] /\
  List.filter is_write (events (run fs)) = [] /\
  files_after (run fs) = fs.
Proof.
  intros He Hv Hlast.
  destruct (main_cases fs) as [(Hf & Hp & Hw) | (la & re & v & t & l & H)];
    [auto|].
  destruct H as (Hm & He' & Hv' & Ht & Hl).
  rewrite He in He'. injection He' as <- <-.
  rewrite Hv in Hv'. injection Hv' as <-.
  rewrite (main_entry_run fs latest rest video_id t l) by assumption.
  cbn [outcome files_after events].
  change (posts (?e :: ?evs)) with (posts evs). cbn [List.filter is_write].
  rewrite check_posts, check_writes, check_files.
  rewrite load_last_seen_run in Hlast.
  assert (Hd : differs video_id (py_strip <$> fs !! marker) = false).
  { unfold differs. destruct (fs !! marker) as [text|]; cbn in Hlast |- *;
      [|discriminate].
    injection Hlast as ->. now rewrite bool_decide_eq_true_2. }
  rewrite Hd. auto.
Qed.

(** C4. On a feed without entries (no [entries] attribute, or an empty
    list) the run returns normally, makes no POST, neither reads nor writes
    a file, and ends with a printed line; with the settings in place the
    run is the fetch followed by the diagnostic. *)
Theorem no_entries_exits_quietly (fs : gmap pystr pystr) :
  entries feed = None \/ entries feed = Some [] ->
  outcome (run fs) = Ok tt /\
  files_after (run fs) = fs /\
  posts (events (run fs)) = [] /\
  List.filter touches_file (events (run fs)) = [] /\
  (exists evs line, events (run fs) = evs ++ [Print line]) /\
  (missing environ = [] ->
   events (run fs) =
   [FeedFetch (FEED_URL environ);
    Print (str "No entries found in feed. Exiting without sending notification.")]).
Proof.
  intros He. rewrite main_run.
  destruct (missing environ) as [|name names] eqn:Hm.
  - assert (Hrun : match entries feed with
                   | Some (latest :: _) => False
                   | _ => True
                   end) by (destruct He as [-> | ->]; exact I).
    destruct (entries feed) as [[|latest rest]|]; try contradiction;
      (repeat split; try reflexivity;
       eexists [FeedFetch (FEED_URL environ)], _; reflexivity).
  - repeat split; try reflexivity; try discriminate.
    eexists [], _. reflexivity.
Qed.

Lemma required_names_distinct :
  List.NoDup (map fst (required environ)).
Proof.
  unfold required. cbn [map fst].
  repeat (constructor; [vm_compute; intuition discriminate|]). constructor.
Qed.


(** An unset variable is a missing setting. *)
Lemma unset_setting_is_blank (name : string) :
  environ !! name = None -> environ_get environ name [] = [].
Proof. unfold environ_get. now intros ->. Qed.

(** The request [send_pushover_notification] posts is the one lines 25-40
    build. *)
Lemma send_post_data (to text : pystr) (url : option pystr)
    (fs : gmap pystr pystr) (u : pystr) (data : gmap string Value) (timeout : Z) :
  In (HttpPost u data timeout) (events (send to text url fs)) ->
  request_data to text url = Ok data /\ u = pushover_endpoint /\ timeout = 15.
Proof.
  rewrite send_run.
  destruct (request_data to text url) as [data'|e]; [|intros []].
  cbn zeta. destruct (requests_post pushover_endpoint data' 15);
    cbn [events In]; intros [[= <- <- <-]|[]]; auto.
Qed.

(** C6. The request that goes out carries [retry] and [expire] exactly when
    the configured priority is 2: at priority 2 both are present with the
    configured values read as integers, 60 and 3600 when the variables are
    unset; at any other priority neither key is present. *)
Theorem emergency_parameters_only_at_priority_2
    (to text : pystr) (url : option pystr) (fs : gmap pystr pystr)
    (u : pystr) (data : gmap string Value) (timeout : Z) :
  py_int (str "60") = Some 60 ->
  py_int (str "3600") = Some 3600 ->
  In (HttpPost u data timeout) (events (send to text url fs)) ->
  exists priority,
    py_int (environ_get environ "PUSHOVER_PRIORITY" (str "1")) = Some priority /\
    data !! "priority" = Some (VInt priority) /\
    (priority = 2 ->
     exists retry expire,
       py_int (environ_get environ "PUSHOVER_RETRY" (str "60")) = Some retry /\
       py_int (environ_get environ "PUSHOVER_EXPIRE" (str "3600")) = Some expire /\
       data !! "retry" = Some (VInt retry) /\
       data !! "expire" = Some (VInt expire) /\
       (environ !! "PUSHOVER_RETRY" = None -> retry = 60) /\
       (environ !! "PUSHOVER_EXPIRE" = None -> expire = 3600)) /\
    (priority <> 2 -> data !! "retry" = None /\ data !! "expire" = None).
Proof.
  intros H60 H3600 Hin. apply send_post_data in Hin as (Hdata & _ & _).
  unfold notification_data, int_env in Hdata.
  destruct (py_int (environ_get environ "PUSHOVER_PRIORITY" (str "1")))
    as [priority|]; [|discriminate].
  exists priority. split; [reflexivity|].
  destruct (Z.eqb_spec priority 2) as [Hp|Hp]; [subst priority|].
  - destruct (py_int (environ_get environ "PUSHOVER_RETRY" (str "60")))
      as [retry|] eqn:Hr; [|discriminate].
    destruct (py_int (environ_get environ "PUSHOVER_EXPIRE" (str "3600")))
      as [expire|] eqn:Hx; [|discriminate].
    injection Hdata as <-.
    split; [destruct url; now simplify_map_eq|].
    split; [|congruence]. intros _. exists retry, expire.
    repeat split; try (destruct url; now simplify_map_eq).
    + intros Hu. unfold environ_get in Hr. rewrite Hu in Hr. congruence.
    + intros Hu. unfold environ_get in Hx. rewrite Hu in Hx. congruence.
  - injection Hdata as <-.
    split; [destruct url; now simplify_map_eq|].
    split; [congruence|]. intros _.
    split; destruct url; now simplify_map_eq.
Qed.

(** C9. The request that goes out has the [url] field, holding the link,
    and the [url_title] field, holding the fixed label, exactly when a link
    is passed; without a link it has neither field. *)
Theorem url_fields_only_with_link
    (to text : pystr) (url : option pystr) (fs : gmap pystr pystr)
    (u : pystr) (data : gmap string Value) (timeout : Z) :
  In (HttpPost u data timeout) (events (send to text url fs)) ->
  data !! "url" = VStr <$> url /\
  data !! "url_title" =
    match url with
    | Some _ => Some (VStr (str "Open Video"))
    | None => None
    end.
Proof.
  intros Hin. apply send_post_data in Hin as (Hdata & _ & _).
  unfold notification_data in Hdata.
  destruct (int_env py_int environ "PUSHOVER_PRIORITY" "1")
    as [priority|]; [|discriminate].
  destruct (priority =? 2).
  - destruct (int_env py_int environ "PUSHOVER_RETRY" "60"); [|discriminate].
    destruct (int_env py_int environ "PUSHOVER_EXPIRE" "3600"); [|discriminate].
    injection Hdata as <-. split; destruct url; now simplify_map_eq.
  - injection Hdata as <-. split; destruct url; now simplify_map_eq.
Qed.

(** C7, as the code has it. With the settings in place, a feed without
    entries ends the run normally after the fetch and the diagnostic line;
    for a feed with entries, [AttributeError] escapes exactly when the
    latest entry lacks the video ID, the title or the link, before any file
    is read and before anything is posted. *)
Theorem feed_faults (fs : gmap pystr pystr) :
  missing environ = [] ->
  match entries feed with
  | None | Some [] =>
      run fs =
      mkRun (Ok tt) fs
        [FeedFetch (FEED_URL environ);
         Print (str "No entries found in feed. Exiting without sending notification.")]
  | Some (latest :: _) =>
      match first_missing_attribute latest with
      | Some name =>
          run fs =
          mkRun (Raise (AttributeError name)) fs [FeedFetch (FEED_URL environ)]
      | None => forall name, outcome (run fs) <> Raise (AttributeError name)
      end
  end.
Proof.
  intros Hm. rewrite main_run, Hm.
  destruct (entries feed) as [[|latest rest]|]; try reflexivity.
  unfold first_missing_attribute.
  destruct (yt_videoid latest) as [v|]; [|reflexivity].
  destruct (title latest) as [t|]; [|reflexivity].
  destruct (link latest) as [l|]; [|reflexivity].
  intros name. cbn [outcome]. rewrite check_outcome.
  destruct (differs v (py_strip <$> fs !! marker)); [|discriminate].
  rewrite send_run. unfold notification_data, int_env.
  repeat match goal with
         | |- context [match py_int ?s with _ => _ end] => destruct (py_int s)
         | |- context [if ?b then _ else _] => destruct b
         | |- context [match requests_post ?a ?b ?c with _ => _ end] =>
             destruct (requests_post a b c) as [s|]; unfold raise_for_status
         | _ => progress cbn [outcome]
         end; discriminate.
Qed.


(** C10. The marker file is compared after stripping: when its contents,
    without the whitespace around them, are the latest entry's video ID, the
    loaded value is that ID, no POST is made, nothing is written, and the
    file keeps its contents, whitespace included. *)
Theorem marker_whitespace_is_ignored
    (fs : gmap pystr pystr) (latest : Entry) (rest : list Entry)
    (video_id contents : pystr) :
  entries feed = Some (latest :: rest) ->
  yt_videoid latest = Some video_id ->
  fs !! marker = Some contents ->
  py_strip contents = video_id ->
  load_last_seen environ fs = mkRun (Ok (Some video_id)) fs [FileRead marker] /\
  posts (events (run fs)) = [] /\
  List.filter is_write (events (run fs)) = [] /\
  files_after (run fs) !! marker = Some contents.
Proof.
  intros He Hv Hc Hs.
  assert (Hload : load_last_seen environ fs =
                  mkRun (Ok (Some video_id)) fs [FileRead marker])
    by (rewrite load_last_seen_run, Hc, Hs; reflexivity).
  split; [exact Hload|].
  destruct (main_cases fs) as [(Hf & Hp & Hw) | (la & re & v & t & l & H)].
  { rewrite Hf. auto. }
  destruct H as (Hm & He' & Hv' & Ht & Hl).
  rewrite He in He'. injection He' as <- <-.
  rewrite Hv in Hv'. injection Hv' as <-.
  rewrite (main_entry_run fs latest rest video_id t l) by assumption.
  cbn [outcome files_after events].
  change (posts (?e :: ?evs)) with (posts evs). cbn [List.filter is_write].
  rewrite check_posts, check_writes, check_files, Hc.
  cbn [fmap option_fmap option_map]. rewrite Hs.
  unfold differs. rewrite bool_decide_eq_true_2 by reflexivity.
  cbn [negb]. auto.
Qed.


(** ** The configuration of lines 15-22 *)

Lemma rstrip_app (s t : pystr) :
  rstrip (s ++ t) = match rstrip t with [] => rstrip s | _ => s ++ rstrip t end.
Proof.
  unfold rstrip. rewrite rev_app_distr.
  destruct (lstrip (rev t)) as [|c r] eqn:E.
  - cbn [rev]. rewrite lstrip_app_spaces; [reflexivity|].
    now apply lstrip_empty_spaces.
  - rewrite lstrip_app_keep by (rewrite E; discriminate). rewrite E.
    rewrite rev_app_distr, rev_involutive.
    destruct (rev (c :: r)) eqn:E'; [|reflexivity].
    apply (f_equal (@length N)) in E'. rewrite length_rev in E'. discriminate.
Qed.

Lemma channel_feed_prefix_kept (s : pystr) :
  py_strip (channel_feed_prefix ++ s) = channel_feed_prefix ++ rstrip s.
Proof.
  unfold py_strip.
  assert (Hl : lstrip (channel_feed_prefix ++ s) = channel_feed_prefix ++ s)
    by reflexivity.
  rewrite Hl, rstrip_app.
  destruct (rstrip s); [|reflexivity].
  rewrite app_nil_r. reflexivity.
Qed.

(** Membership in [missing], setting by setting. *)
Lemma in_missing_iff (name value : pystr) :
  In (name, value) (required environ) ->
  In name (missing environ) <-> blank value = true.
Proof.
  clear py_int feedparser_parse requests_post.
  intros Hin. unfold missing. rewrite List.in_map_iff. split.
  - intros ([name' value'] & Hname & Hin').
    apply List.filter_In in Hin' as [Hin' Hb]. cbn [fst snd] in *. subst name'.
    assert (value' = value) as ->; [|assumption].
    pose proof required_names_distinct as Hnd.
    revert Hin Hin' Hnd. generalize (required environ). intros req.
    induction req as [|[n v] req IH]; cbn [In map fst]; [tauto|].
    intros Hin Hin' Hnd. inversion Hnd as [|? ? Hn Hnd']; subst.
    destruct Hin as [E|Hin], Hin' as [E'|Hin'].
    + congruence.
    + exfalso. apply Hn. apply List.in_map_iff.
      exists (name, value'). split; [cbn [fst]; congruence | assumption].
    + exfalso. apply Hn. apply List.in_map_iff.
      exists (name, value). split; [cbn [fst]; congruence | assumption].
    + now apply IH.
  - intros Hb. exists (name, value). split; [reflexivity|].
    apply List.filter_In. split; assumption.
Qed.

(** X1. An explicit YOUTUBE_FEED_URL always wins over the channel ID: the
    feed URL is its stripped value, and when that value is empty or
    whitespace only the feed source is reported missing whatever the
    channel ID is. *)
Theorem explicit_feed_url_overrides_channel_id (value : pystr) :
  environ !! "YOUTUBE_FEED_URL" = Some value ->
  FEED_URL environ = py_strip value /\
  (forallb is_space value = true ->
   In (str "YOUTUBE_FEED_URL or YOUTUBE_CHANNEL_ID") (missing environ)).
Proof.
  clear py_int feedparser_parse requests_post.
  intros Hv.
  assert (Hurl : FEED_URL environ = py_strip value).
  { unfold FEED_URL, environ_get at 1. now rewrite Hv. }
  split; [exact Hurl|]. intros Hb.
  apply (in_missing_iff _ (FEED_URL environ)); [left; reflexivity|].
  rewrite Hurl. apply py_strip_spaces in Hb. rewrite Hb. reflexivity.
Qed.

(** X2. Without YOUTUBE_FEED_URL the feed URL is derived from the channel
    ID: empty when the channel ID is unset or empty, and otherwise the fixed
    prefix followed by the channel ID less its trailing whitespace (leading
    whitespace, and a whitespace-only ID, still give a non-empty URL that is
    not reported missing). *)
Theorem feed_url_from_channel_id :
  environ !! "YOUTUBE_FEED_URL" = None ->
  FEED_URL environ =
    (if truthy (YOUTUBE_CHANNEL_ID environ)
     then channel_feed_prefix ++ rstrip (YOUTUBE_CHANNEL_ID environ)
     else []) /\
  (In (str "YOUTUBE_FEED_URL or YOUTUBE_CHANNEL_ID") (missing environ)
   <-> YOUTUBE_CHANNEL_ID environ = []).
Proof.
  clear py_int feedparser_parse requests_post.
  intros Hnone.
  assert (Hurl : FEED_URL environ =
                 if truthy (YOUTUBE_CHANNEL_ID environ)
                 then channel_feed_prefix ++ rstrip (YOUTUBE_CHANNEL_ID environ)
                 else []).
  { unfold FEED_URL, environ_get at 1. rewrite Hnone.
    destruct (truthy (YOUTUBE_CHANNEL_ID environ)); [|reflexivity].
    apply channel_feed_prefix_kept. }
  split; [exact Hurl|].
  rewrite (in_missing_iff _ (FEED_URL environ)) by (left; reflexivity).
  rewrite Hurl. destruct (YOUTUBE_CHANNEL_ID environ) as [|c r].
  - cbn. tauto.
  - cbn [truthy]. split; [|discriminate].
    intros Hb. apply blank_spec in Hb. discriminate Hb.
Qed.

(** X3. The feed URL never has whitespace around it, so it is reported
    missing exactly when it is empty. *)
Theorem feed_url_is_stripped :
  py_strip (FEED_URL environ) = FEED_URL environ /\
  (In (str "YOUTUBE_FEED_URL or YOUTUBE_CHANNEL_ID") (missing environ)
   <-> FEED_URL environ = []).
Proof.
  clear py_int feedparser_parse requests_post.
  assert (Hs : py_strip (FEED_URL environ) = FEED_URL environ)
    by apply py_strip_idem.
  split; [exact Hs|].
  rewrite (in_missing_iff _ (FEED_URL environ)) by (left; reflexivity).
  unfold blank. rewrite Hs.
  destruct (FEED_URL environ); cbn; split; congruence.
Qed.

(** ** What a run does, over all worlds *)

(** Every shape a run can take: the settings, the feed, the attributes of
    the latest entry, the marker file, the comparison, the request and the
    answer of the service. *)
Ltac split_run :=
  rewrite ?main_run;
  repeat first
    [ rewrite check_and_notify_run
    | rewrite send_run
    | progress cbn zeta
    | progress unfold raise_for_status
    | progress cbn [outcome files_after events fmap option_fmap option_map]
    | match goal with
      | |- context [match notification_data ?a ?b ?c ?d ?e with _ => _ end] =>
          destruct (notification_data a b c d e) eqn:?
      | |- context [match requests_post ?a ?b ?c with _ => _ end] =>
          destruct (requests_post a b c) eqn:?
      | |- context [if (400 <=? ?s) && (?s <? 600) then _ else _] =>
          destruct ((400 <=? s) && (s <? 600)) eqn:?
      end
    | match goal with
      | |- context [match ?x with _ => _ end] => destruct x eqn:?
      end ];
  cbn [outcome files_after events app].

(** X4. A run fetches the feed at most once, reads a file at most once,
    posts at most once and writes at most once. *)
Theorem run_effects_at_most_once (fs : gmap pystr pystr) :
  (length (List.filter is_fetch (events (run fs))) <= 1)%nat /\
  (length (List.filter is_read (events (run fs))) <= 1)%nat /\
  (length (posts (events (run fs))) <= 1)%nat /\
  (length (List.filter is_write (events (run fs))) <= 1)%nat.
Proof.
  split_run; cbn; lia.
Qed.

(** X5. The marker file is the only file a run reads or writes: every other
    path holds after the run what it held before, and every file effect is
    on the marker path. *)
Theorem run_touches_only_marker (fs : gmap pystr pystr) :
  (forall path, path <> marker ->
                files_after (run fs) !! path = fs !! path) /\
  List.Forall (on_path marker) (events (run fs)).
Proof.
  split_run;
    (split;
     [ intros path Hp; rewrite ?lookup_insert_ne by congruence; reflexivity
     | repeat constructor ]).
Qed.


(** The fields every request has, whatever the priority and the link. *)
Lemma request_base_fields (to text : pystr) (url : option pystr)
    (data : gmap string Value) :
  request_data to text url = Ok data ->
  data !! "token" = Some (VStr (PUSHOVER_TOKEN environ)) /\
  data !! "user" = Some (VStr to) /\
  data !! "title" = Some (VStr notification_title) /\
  data !! "message" = Some (VStr text).
Proof.
  unfold notification_data. intros Hdata.
  destruct (int_env py_int environ "PUSHOVER_PRIORITY" "1")
    as [priority|]; [|discriminate].
  destruct (priority =? 2).
  - destruct (int_env py_int environ "PUSHOVER_RETRY" "60"); [|discriminate].
    destruct (int_env py_int environ "PUSHOVER_EXPIRE" "3600"); [|discriminate].
    injection Hdata as <-. repeat split; destruct url; now simplify_map_eq.
  - injection Hdata as <-. repeat split; destruct url; now simplify_map_eq.
Qed.

Lemma request_url_fields (to text link : pystr) (data : gmap string Value) :
  request_data to text (Some link) = Ok data ->
  data !! "url" = Some (VStr link) /\
  data !! "url_title" = Some (VStr (str "Open Video")).
Proof.
  unfold notification_data. intros Hdata.
  destruct (int_env py_int environ "PUSHOVER_PRIORITY" "1")
    as [priority|]; [|discriminate].
  destruct (priority =? 2).
  - destruct (int_env py_int environ "PUSHOVER_RETRY" "60"); [|discriminate].
    destruct (int_env py_int environ "PUSHOVER_EXPIRE" "3600"); [|discriminate].
    injection Hdata as <-. split; now simplify_map_eq.
  - injection Hdata as <-. split; now simplify_map_eq.
Qed.

(** X7. Whatever a run posts goes to the notification endpoint with a
    timeout of 15 seconds and describes the latest entry: the configured
    token and recipient, the fixed title, the entry's title as the message
    and the entry's link as the URL with its fixed label. *)
Theorem posted_request_describes_latest_entry
    (fs : gmap pystr pystr) (u : pystr) (data : gmap string Value)
    (timeout : Z) :
  In (HttpPost u data timeout) (events (run fs)) ->
  u = pushover_endpoint /\ timeout = 15 /\
  exists latest rest t l,
    entries feed = Some (latest :: rest) /\
    title latest = Some t /\ link latest = Some l /\
    data !! "token" = Some (VStr (PUSHOVER_TOKEN environ)) /\
    data !! "user" = Some (VStr (PUSHOVER_USER environ)) /\
    data !! "title" = Some (VStr notification_title) /\
    data !! "message" = Some (VStr t) /\
    data !! "url" = Some (VStr l) /\
    data !! "url_title" = Some (VStr (str "Open Video")).
Proof.
  split_run; cbn [In]; intros Hin;
    repeat match type of Hin with
           | _ \/ _ => destruct Hin as [Hin|Hin]
           end;
    try discriminate Hin; try contradiction.
  all: injection Hin as <- <- <-.
  all: split; [reflexivity|]; split; [reflexivity|].
  all: match goal with
       | H : request_data _ _ _ = Ok _ |- _ =>
           destruct (request_base_fields _ _ _ _ H) as (? & ? & ? & ?);
           destruct (request_url_fields _ _ _ _ H) as (? & ?)
       end.
  all: do 4 eexists; repeat split; eassumption.
Qed.

(** X8. The request is built exactly when the priority reads as an integer
    and, at priority 2, so do the retry interval and the expiration; at any
    other priority those two variables are never read. Building fails only
    with [ValueError]. *)
Theorem request_built_iff_options_parse
    (to text : pystr) (url : option pystr) :
  ((exists data, request_data to text url = Ok data) <->
   (exists priority,
      py_int (environ_get environ "PUSHOVER_PRIORITY" (str "1")) = Some priority /\
      (priority = 2 ->
       is_Some (py_int (environ_get environ "PUSHOVER_RETRY" (str "60"))) /\
       is_Some (py_int (environ_get environ "PUSHOVER_EXPIRE" (str "3600")))))) /\
  (forall e, request_data to text url = Raise e -> e = ValueError).
Proof.
  unfold notification_data, int_env.
  destruct (py_int (environ_get environ "PUSHOVER_PRIORITY" (str "1")))
    as [priority|].
  2:{ split; [|congruence]. split; intros [? H]; [discriminate | now destruct H]. }
  destruct (Z.eqb_spec priority 2) as [Hp|Hp].
  - destruct (py_int (environ_get environ "PUSHOVER_RETRY" (str "60")))
      as [retry|];
      destruct (py_int (environ_get environ "PUSHOVER_EXPIRE" (str "3600")))
        as [expire|].
    + split; [|discriminate]. split; [|eauto]. intros _. exists priority. eauto.
    + split; [|congruence]. split; [intros [? H]; discriminate|].
      intros (p & [= <-] & H). destruct (H Hp) as [_ [? ?]]. discriminate.
    + split; [|congruence]. split; [intros [? H]; discriminate|].
      intros (p & [= <-] & H). destruct (H Hp) as [[? ?] _]. discriminate.
    + split; [|congruence]. split; [intros [? H]; discriminate|].
      intros (p & [= <-] & H). destruct (H Hp) as [[? ?] _]. discriminate.
  - split; [|discriminate]. split; [|eauto].
    intros _. exists priority. split; [reflexivity|]. intros ?. contradiction.
Qed.

(** X10. [send_pushover_notification] returns normally exactly when the
    request is built and the service answers with a status outside 400-599;
    it never touches the file system and prints nothing. *)
Theorem send_returns_iff_success
    (to text : pystr) (url : option pystr) (fs : gmap pystr pystr) :
  (outcome (send to text url fs) = Ok tt <->
   exists data status_code,
     request_data to text url = Ok data /\
     requests_post pushover_endpoint data 15 = Responded status_code /\
     ~ 400 <= status_code < 600) /\
  files_after (send to text url fs) = fs /\
  (forall line, ~ In (Print line) (events (send to text url fs))).
Proof.
  clear feedparser_parse.
  rewrite send_run.
  destruct (request_data to text url) as [data|e].
  2:{ repeat split; try discriminate; try tauto.
      intros (? & ? & ? & _). discriminate. }
  cbn zeta. destruct (requests_post pushover_endpoint data 15) as [s|] eqn:Hs;
    cbn [outcome files_after events In].
  2:{ repeat split; try discriminate.
      - intros (? & ? & [= <-] & ? & _). congruence.
      - intros line [?|[]]. discriminate. }
  unfold raise_for_status.
  destruct ((400 <=? s) && (s <? 600)) eqn:Hc.
  - apply andb_true_iff in Hc. repeat split; try discriminate.
    + intros (? & s' & [= <-] & Hs' & Hn). rewrite Hs in Hs'.
      injection Hs' as <-. lia.
    + intros line [?|[]]. discriminate.
  - apply andb_false_iff in Hc. repeat split.
    + intros _. exists data, s. repeat split; [assumption | lia].
    + intros line [?|[]]. discriminate.
Qed.

Lemma request_raise_is_value_error (to text : pystr) (url : option pystr)
    (e : Exn) :
  request_data to text url = Raise e -> e = ValueError.
Proof.
  unfold notification_data, int_env.
  repeat match goal with
         | |- context [match py_int ?s with _ => _ end] => destruct (py_int s)
         | |- context [if ?b then _ else _] => destruct b
         end; congruence.
Qed.

(** X9. When a new video is detected and the numeric options do not read
    as integers, the run announces the new video and then fails with
    [ValueError]: nothing is posted and the file system is unchanged. *)
Theorem unreadable_options_fail_before_post
    (fs : gmap pystr pystr) (latest : Entry) (rest : list Entry)
    (video_id t l : pystr) (e : Exn) :
  missing environ = [] ->
  entries feed = Some (latest :: rest) ->
  yt_videoid latest = Some video_id ->
  title latest = Some t ->
  link latest = Some l ->
  py_strip <$> fs !! marker <> Some video_id ->
  request_data (PUSHOVER_USER environ) t (Some l) = Raise e ->
  outcome (run fs) = Raise ValueError /\
  posts (events (run fs)) = [] /\
  files_after (run fs) = fs /\
  last (events (run fs)) =
    Some (Print (str "New video detected. Sending notification and updating LAST_SEEN_FILE.")).
Proof.
  intros Hm He Hv Ht Hl Hne Hdata.
  assert (e = ValueError) as -> by (eapply request_raise_is_value_error; eauto).
  assert (Hd : differs video_id (py_strip <$> fs !! marker) = true).
  { unfold differs. rewrite bool_decide_eq_false_2; [reflexivity|].
    intros E. now apply Hne. }
  rewrite (main_entry_run fs latest rest video_id t l) by assumption.
  cbn [outcome files_after events].
  change (posts (?x :: ?evs)) with (posts evs).
  rewrite check_posts, check_outcome, check_files, Hd, send_posts.
  rewrite check_and_notify_run. cbn zeta. rewrite Hd, send_run, Hdata.
  cbn [outcome events]. repeat split.
  destruct (fs !! marker); reflexivity.
Qed.

(** X11. In the steady state (the stripped marker is the latest entry's
    video ID) the whole run is: fetch, read the marker, print the last-seen
    ID, print that there is nothing to do, return. The numeric options and
    the notification service play no part. *)
Theorem steady_state_run
    (fs : gmap pystr pystr) (latest : Entry) (rest : list Entry)
    (video_id t l : pystr) :
  missing environ = [] ->
  entries feed = Some (latest :: rest) ->
  yt_videoid latest = Some video_id ->
  title latest = Some t ->
  link latest = Some l ->
  py_strip <$> fs !! marker = Some video_id ->
  run fs =
  mkRun (Ok tt) fs
    [FeedFetch (FEED_URL environ);
     FileRead marker;
     Print (str "Last seen video ID: " ++ video_id);
     Print (str "No new video. Nothing to do.")].
Proof.
  intros Hm He Hv Ht Hl Hs.
  rewrite (main_entry_run fs latest rest video_id t l) by assumption.
  rewrite check_and_notify_run. cbn zeta. rewrite Hs.
  unfold differs. rewrite bool_decide_eq_true_2 by reflexivity.
  cbn [negb outcome files_after events format_opt].
  destruct (fs !! marker); [reflexivity | discriminate].
Qed.


(** X14. The names in the line about missing settings come in a fixed
    order (feed source, marker file, recipient, token), each at most
    once. *)
Theorem missing_names_in_order :
  sublist (missing environ)
    [str "YOUTUBE_FEED_URL or YOUTUBE_CHANNEL_ID"; str "LAST_SEEN_FILE";
     str "PUSHOVER_USER"; str "PUSHOVER_TOKEN"].
Proof.
  unfold missing, required. cbn [List.filter snd].
  destruct (blank (FEED_URL environ)), (blank (LAST_SEEN_FILE environ)),
    (blank (PUSHOVER_USER environ)), (blank (PUSHOVER_TOKEN environ));
    cbn [map fst];
    repeat first [apply sublist_nil | apply sublist_skip | apply sublist_cons].
Qed.

(** X15. A run that returns normally ends by printing one of its four
    closing lines. *)
Theorem normal_return_ends_with_a_line (fs : gmap pystr pystr) :
  outcome (run fs) = Ok tt ->
  exists line,
    last (events (run fs)) = Some (Print line) /\
    In line
      [str "Missing required env: " ++ join (str ", ") (missing environ);
       str "No entries found in feed. Exiting without sending notification.";
       str "LAST_SEEN_FILE updated.";
       str "No new video. Nothing to do."].
Proof.
  split_run; intros Hok; try discriminate Hok;
    (eexists; split; [reflexivity|]; cbn [In]; auto).
Qed.

End Properties.

(** ** The theorems on concrete runs *)

Lemma marker_unchanged_when_notification_fails_witness :
  (forall data,
     In (HttpPost pushover_endpoint data 15)
        (events (example_run 500 (str "abc123"))) ->
     call_fails (post_responds 500 pushover_endpoint data 15)) /\
  files_after (example_run 500 (str "abc123")) = example_files (str "abc123") /\
  List.filter is_write (events (example_run 500 (str "abc123"))) = [] /\
  (posts (events (example_run 500 (str "abc123"))) <> [] ->
   exists e, outcome (example_run 500 (str "abc123")) = Raise e).
Proof.
  assert (H : forall data,
             In (HttpPost pushover_endpoint data 15)
                (events (example_run 500 (str "abc123"))) ->
             call_fails (post_responds 500 pushover_endpoint data 15)).
  { intros data _. cbn. lia. }
  split; [exact H|].
  exact (marker_unchanged_when_notification_fails int_of_decimal
           example_environ example_feed (post_responds 500)
           (example_files (str "abc123")) H).
Defined.


(** The second example of the specification: marker and latest entry are
    both [xyz789]. *)
Lemma same_video_is_noop_witness :
  posts (events (example_run 200 (str "xyz789"))) = [] /\
  List.filter is_write (events (example_run 200 (str "xyz789"))) = [] /\
  files_after (example_run 200 (str "xyz789")) = example_files (str "xyz789").
Proof.
  apply (same_video_is_noop int_of_decimal example_environ example_feed
           (post_responds 200) (example_files (str "xyz789"))
           example_entry [] (str "xyz789")); reflexivity.
Defined.

Lemma no_entries_exits_quietly_witness :
  outcome (main int_of_decimal example_environ empty_feed (post_responds 200)
             (example_files (str "abc123"))) = Ok tt /\
  events (main int_of_decimal example_environ empty_feed (post_responds 200)
            (example_files (str "abc123")))
  = [FeedFetch (FEED_URL example_environ);
     Print (str "No entries found in feed. Exiting without sending notification.")].
Proof.
  destruct (no_entries_exits_quietly int_of_decimal example_environ empty_feed
              (post_responds 200) (example_files (str "abc123")))
    as (Hout & _ & _ & _ & _ & Hev); [right; reflexivity|].
  split; [exact Hout | apply Hev; reflexivity].
Defined.


Lemma emergency_parameters_only_at_priority_2_witness :
  emergency_data !! "priority" = Some (VInt 2) /\
  emergency_data !! "retry" = Some (VInt 30) /\
  emergency_data !! "expire" = Some (VInt 3600).
Proof.
  destruct (emergency_parameters_only_at_priority_2 int_of_decimal
              emergency_environ (post_responds 200)
              (str "user-key") (str "My New Upload") None ∅
              pushover_endpoint emergency_data 15)
    as (priority & Hp & Hprio & Hat2 & _).
  - reflexivity.
  - reflexivity.
  - left. reflexivity.
  - injection Hp as <-.
    destruct (Hat2 eq_refl) as (retry & expire & Hr & Hx & Hretry & Hexpire & _ & Hdef).
    injection Hr as <-. rewrite (Hdef eq_refl) in Hexpire. auto.
Defined.

Lemma url_fields_only_with_link_witness :
  example_data !! "url" = Some (VStr (str "https://youtu.be/xyz789")) /\
  example_data !! "url_title" = Some (VStr (str "Open Video")).
Proof.
  apply (url_fields_only_with_link int_of_decimal example_environ
           (post_responds 200) (str "user-key") (str "My New Upload")
           (Some (str "https://youtu.be/xyz789")) ∅
           pushover_endpoint example_data 15).
  left. reflexivity.
Defined.

(** C7 fails on the code: a feed whose latest entry has no video ID takes
    the run past the check for entries and into [AttributeError]. *)
Lemma entry_without_video_id_raises :
  outcome (main int_of_decimal example_environ feed_without_video_id
             (post_responds 200) (example_files (str "abc123")))
  = Raise (AttributeError "yt_videoid").
Proof. reflexivity. Qed.

Lemma feed_faults_witness :
  main int_of_decimal example_environ feed_without_video_id
       (post_responds 200) (example_files (str "abc123"))
  = mkRun (Raise (AttributeError "yt_videoid")) (example_files (str "abc123"))
      [FeedFetch (FEED_URL example_environ)].
Proof.
  exact (feed_faults int_of_decimal example_environ feed_without_video_id
           (post_responds 200) (example_files (str "abc123")) eq_refl).
Defined.


Lemma marker_whitespace_is_ignored_witness :
  posts (events (example_run 200 (str "  xyz789 " ++ [10%N]))) = [] /\
  files_after (example_run 200 (str "  xyz789 " ++ [10%N]))
    !! str "/tmp/last_seen.txt"
  = Some (str "  xyz789 " ++ [10%N]).
Proof.
  destruct (marker_whitespace_is_ignored int_of_decimal example_environ
              example_feed (post_responds 200)
              (example_files (str "  xyz789 " ++ [10%N])) example_entry []
              (str "xyz789") (str "  xyz789 " ++ [10%N]))
    as (_ & Hposts & _ & Hfile); try reflexivity.
  split; [exact Hposts | exact Hfile].
Defined.

(** The feed source is judged on the resolved URL: a whitespace-only channel
    ID still yields a URL, so it is not reported as missing. *)
Example whitespace_channel_id_resolves :
  FEED_URL (<["YOUTUBE_CHANNEL_ID" := str "   "]> example_environ)
  = str "https://www.youtube.com/feeds/videos.xml?channel_id=" /\
  missing (<["YOUTUBE_CHANNEL_ID" := str "   "]> example_environ) = [].
Proof. split; reflexivity. Qed.

(** ** Across two runs *)


(** ** The further theorems on concrete runs *)

Lemma explicit_feed_url_overrides_channel_id_witness :
  FEED_URL blank_url_environ = [] /\
  In (str "YOUTUBE_FEED_URL or YOUTUBE_CHANNEL_ID") (missing blank_url_environ).
Proof.
  destruct (explicit_feed_url_overrides_channel_id blank_url_environ
              (str "  ") eq_refl) as [Hurl Hmiss].
  split; [exact Hurl | apply Hmiss; reflexivity].
Defined.

Lemma feed_url_from_channel_id_witness :
  FEED_URL padded_channel_environ = channel_feed_prefix ++ str " UC123".
Proof.
  destruct (feed_url_from_channel_id padded_channel_environ eq_refl)
    as [Hurl _].
  exact Hurl.
Defined.


Lemma posted_request_describes_latest_entry_witness :
  example_data !! "token" = Some (VStr (str "app-token")) /\
  example_data !! "user" = Some (VStr (str "user-key")) /\
  example_data !! "title" = Some (VStr notification_title).
Proof.
  destruct (posted_request_describes_latest_entry int_of_decimal
              example_environ example_feed (post_responds 200)
              (example_files (str "abc123")) pushover_endpoint example_data 15)
    as (_ & _ & latest & rest & t & l & _ & _ & _ & Htok & Huser & Htitle & _).
  - do 4 right. left. reflexivity.
  - split; [exact Htok|]. split; [exact Huser | exact Htitle].
Defined.

Lemma unreadable_options_fail_before_post_witness :
  outcome (main int_of_decimal bad_priority_environ example_feed
             (post_responds 200) (example_files (str "abc123")))
  = Raise ValueError /\
  posts (events (main int_of_decimal bad_priority_environ example_feed
                   (post_responds 200) (example_files (str "abc123")))) = [].
Proof.
  destruct (unreadable_options_fail_before_post int_of_decimal
              bad_priority_environ example_feed (post_responds 200)
              (example_files (str "abc123")) example_entry []
              (str "xyz789") (str "My New Upload")
              (str "https://youtu.be/xyz789") ValueError)
    as (Hout & Hposts & _); try reflexivity.
  - vm_compute. discriminate.
  - split; [exact Hout | exact Hposts].
Defined.

Lemma steady_state_run_witness :
  example_run 200 (str "xyz789")
  = mkRun (Ok tt) (example_files (str "xyz789"))
      [FeedFetch (FEED_URL example_environ);
       FileRead (str "/tmp/last_seen.txt");
       Print (str "Last seen video ID: xyz789");
       Print (str "No new video. Nothing to do.")].
Proof.
  exact (steady_state_run int_of_decimal example_environ example_feed
           (post_responds 200) (example_files (str "xyz789")) example_entry []
           (str "xyz789") (str "My New Upload")
           (str "https://youtu.be/xyz789")
           eq_refl eq_refl eq_refl eq_refl eq_refl eq_refl).
Defined.


Lemma normal_return_ends_with_a_line_witness :
  exists line,
    last (events (example_run 200 (str "abc123"))) = Some (Print line).
Proof.
  destruct (normal_return_ends_with_a_line int_of_decimal example_environ
              example_feed (post_responds 200) (example_files (str "abc123"))
              eq_refl) as (line & Hlast & _).
  exists line. exact Hlast.
Defined.


